(** * New England Airport Explorer: the load / filter / aggregate pipeline

    A shallow embedding of [NewEnglandAirportExplorer.py].  The pandas
    objects are modelled as follows.

    - A [DataFrame] is the list of its rows, in row order; a row is a record
      with one field per column of [new_england_airports.csv].  A [Frame]
      is such a table together with its column labels: what [load_data]
      returns, where [pd.DataFrame()] has no column and a table read from
      the file has the file's columns even when it has no row.
    - A numeric cell is an exact rational ([Q]) or [None] for pandas' NaN
      (a blank cell of the file, or a Python [None] stored in a float column).
      Floating point rounding is not modelled.
    - A text cell of a column the program tests with [isin] is
      [option string], [None] being the NaN of a blank cell.
    - The Streamlit calls are recorded, in order, in a log carried by a small
      output monad. *)

From Stdlib Require Import String List Bool Arith ZArith QArith Lia Lqa.
From Stdlib Require Import Permutation Sorted.
Import ListNotations.

Local Open Scope string_scope.
Local Open Scope list_scope.

(** ** Data model *)

Record Row : Type := mkRow {
  id : Z;
  ident : string;
  type : option string;
  name : string;
  latitude_deg : Q;
  longitude_deg : Q;
  elevation_ft : option Q;
  iso_region : option string;
  municipality : string;
  scheduled_service : option string
}.

Definition DataFrame : Type := list Row.

Definition set_iso_region (v : option string) (r : Row) : Row :=
  mkRow (id r) (ident r) (type r) (name r) (latitude_deg r) (longitude_deg r)
        (elevation_ft r) v (municipality r) (scheduled_service r).

Definition set_elevation_ft (v : option Q) (r : Row) : Row :=
  mkRow (id r) (ident r) (type r) (name r) (latitude_deg r) (longitude_deg r)
        v (iso_region r) (municipality r) (scheduled_service r).

(** A table with its column labels. *)
Record Frame : Type := mkFrame {
  columns : list string;
  rows : DataFrame
}.

(** [pd.DataFrame()]: no column, no row. *)
Definition pd_DataFrame : Frame := mkFrame [] [].

(** The columns of a table read from the file, after [set_index("id")]. *)
Definition csv_columns : list string :=
  ["ident"; "type"; "name"; "latitude_deg"; "longitude_deg"; "elevation_ft";
   "iso_region"; "municipality"; "scheduled_service"].

(** [len(data)]. *)
Definition len (data : DataFrame) : nat := List.length data.

(** [data.empty]: true when the frame has no column or no row. *)
Definition empty (data : Frame) : bool :=
  match columns data, rows data with
  | [], _ => true
  | _ :: _, [] => true
  | _ :: _, _ :: _ => false
  end.

(** ** The state mapping dictionary *)

Definition STATES : list (string * string) :=
  [ ("US-CT", "Connecticut");
    ("US-ME", "Maine");
    ("US-MA", "Massachusetts");
    ("US-NH", "New Hampshire");
    ("US-RI", "Rhode Island");
    ("US-VT", "Vermont") ].

Definition keys {V : Type} (d : list (string * V)) : list string := map fst d.
Definition values {V : Type} (d : list (string * V)) : list V := map snd d.

(** [d.get(k)]: the value of the first entry whose key is [k]. *)
Fixpoint get {V : Type} (d : list (string * V)) (k : string) : option V :=
  match d with
  | [] => None
  | (k', v) :: d' => if String.eqb k k' then Some v else get d' k
  end.

(** ** Series operations *)

(** [Series.isin(values)] on one cell; the lists the program passes hold
    strings only, so a NaN cell is never a member. *)
Definition isin (c : option string) (vals : list string) : bool :=
  match c with
  | Some s => existsb (String.eqb s) vals
  | None => false
  end.

(** [Series.map(dict)] on one cell; a cell that is no key becomes NaN. *)
Definition map_dict (d : list (string * string)) (c : option string)
  : option string :=
  match c with
  | Some s => get d s
  | None => None
  end.

(** [x > y] on numbers. *)
Definition Qgtb (x y : Q) : bool :=
  match (x ?= y)%Q with
  | Gt => true
  | _ => false
  end.

(** [x <= y] where [x] is a cell that may be NaN: a comparison with NaN is
    [False]. *)
Definition cell_le (c : option Q) (y : Q) : bool :=
  match c with
  | Some x => Qle_bool x y
  | None => false
  end.

(** The order [sort_values] puts the rows in: ascending, NaN last
    ([na_position="last"] is the default). *)
Definition elevation_leb (a b : option Q) : bool :=
  match a, b with
  | Some x, Some y => Qle_bool x y
  | Some _, None => true
  | None, Some _ => false
  | None, None => true
  end.

Section Sorting.
Context {A : Type} (leb : A -> A -> bool).

Fixpoint insert (x : A) (l : list A) : list A :=
  match l with
  | [] => [x]
  | h :: t => if leb x h then x :: h :: t else h :: insert x t
  end.

Definition sort (l : list A) : list A := fold_right insert [] l.
End Sorting.

(** [data.sort_values(by="elevation_ft")].  Rows with equal elevation keep
    their relative order here; the default sorting kind leaves that order
    open, and nothing below depends on it. *)
Definition sort_values (data : DataFrame) : DataFrame :=
  sort (fun a b => elevation_leb (elevation_ft a) (elevation_ft b)) data.

(** [lambda x: x if x > 0 else None]; storing [None] in the float column
    gives NaN. *)
Definition clean_elevation (c : option Q) : option Q :=
  match c with
  | Some x => if Qgtb x 0 then Some x else None
  | None => None
  end.

(** ** The Streamlit log *)

Inductive Figure : Type :=
| scatter_geo (data : DataFrame)
| bar (avg_elevation : list (string * option Q))
| scatterpolar (combined : list (string * nat * option Q))
| box (data : DataFrame).

Inductive st_call : Type :=
| st_title (body : string)
| st_sidebar_header (body : string)
| st_sidebar_markdown (body : string)
| st_sidebar_write (body : string)
| st_sidebar_widget (label : string)
| st_error (body : string)
| st_subheader (body : string)
| st_markdown (body : string)
| st_write (body : string)
| st_write_metric (label : string) (n : nat)
| st_plotly_chart (fig : Figure).

(** A computation that returns a value and appends calls to the log. *)
Definition UI (A : Type) : Type := A * list st_call.

Definition ret {A : Type} (a : A) : UI A := (a, []).

Definition bind {A B : Type} (m : UI A) (k : A -> UI B) : UI B :=
  let (a, w) := m in
  let (b, w') := k a in
  (b, w ++ w').

Definition call (c : st_call) : UI unit := (tt, [c]).

Definition value {A : Type} (m : UI A) : A := fst m.
Definition log {A : Type} (m : UI A) : list st_call := snd m.

Declare Scope ui_scope.
Delimit Scope ui_scope with ui.
Notation "x <- m ;; k" := (bind m (fun x => k))
  (at level 61, m at next level, right associativity) : ui_scope.
Notation "m ;; k" := (bind m (fun _ => k))
  (at level 61, right associativity) : ui_scope.

(** ** Reading the file *)

Inductive exn : Type := FileNotFoundError.

Inductive result (A : Type) : Type :=
| Ok (a : A)
| Raise (e : exn).
Arguments Ok {A} a.
Arguments Raise {A} e.

(** The file system as the program sees it: the parsed contents of
    [new_england_airports.csv], or nothing when the file is absent. *)
Definition FileSystem : Type := option DataFrame.

Definition read_csv (fs : FileSystem) : result DataFrame :=
  match fs with
  | Some data => Ok data
  | None => Raise FileNotFoundError
  end.

Definition airport_types : list string :=
  ["small_airport"; "medium_airport"; "large_airport"].

Definition file_not_found_message : string :=
  "File not found. Please make sure 'new_england_airports.csv' is in the correct directory.".

(** ** [load_data] *)

Definition preprocess (data : DataFrame) : DataFrame :=
  let data := filter (fun r => isin (iso_region r) (keys STATES)) data in
  let data := filter (fun r => isin (type r) airport_types) data in
  let data := map (fun r => set_iso_region (map_dict STATES (iso_region r)) r) data in
  let data := sort_values data in
  let data := map (fun r => set_elevation_ft (clean_elevation (elevation_ft r)) r) data in
  data.

Definition load_data (fs : FileSystem) : UI Frame :=
  match read_csv fs with
  | Raise FileNotFoundError =>
      (call (st_error file_not_found_message) ;;
       ret pd_DataFrame)%ui
  | Ok data => ret (mkFrame csv_columns (preprocess data))
  end.

(** ** [filter_data] *)

Definition filter_data (data : DataFrame) (regions : list string) (elevation : Q)
    (airport_types : list string) (service_filter : list string)
  : DataFrame * nat :=
  let filtered_data :=
    filter (fun r =>
              isin (iso_region r) regions
              && cell_le (elevation_ft r) elevation
              && isin (type r) airport_types
              && isin (scheduled_service r) service_filter) data in
  (filtered_data, len filtered_data).

(** ** Grouping and aggregation *)

(** The non-NaN cells of a column, in row order. *)
Fixpoint dropna {A : Type} (cells : list (option A)) : list A :=
  match cells with
  | [] => []
  | Some a :: cells' => a :: dropna cells'
  | None :: cells' => dropna cells'
  end.

(** The distinct values of a list, in order of first appearance. *)
Definition unique (l : list string) : list string :=
  rev (nodup string_dec (rev l)).

Definition cell_is (c : option string) (k : string) : bool :=
  match c with
  | Some s => String.eqb s k
  | None => false
  end.

(** [data.groupby("iso_region")]: one group per distinct region, the groups
    in ascending order of their key; rows with a NaN key are in no group. *)
Definition groupby_iso_region (data : DataFrame) : list (string * DataFrame) :=
  map (fun k => (k, filter (fun r => cell_is (iso_region r) k) data))
      (sort String.leb (unique (dropna (map iso_region data)))).

(** [.size()]: the number of rows of each group. *)
Definition size (groups : list (string * DataFrame)) : list (string * nat) :=
  map (fun g => (fst g, len (snd g))) groups.

(** [Series.mean()]: one pass that adds up the non-NaN cells and counts
    them; NaN when there is none. *)
Definition mean_step (acc : Q * nat) (c : option Q) : Q * nat :=
  match c with
  | Some x => (fst acc + x, S (snd acc))
  | None => acc
  end.

Definition mean (cells : list (option Q)) : option Q :=
  let acc := fold_left mean_step cells (0, 0%nat) in
  match snd acc with
  | O => None
  | S _ => Some (fst acc / inject_Z (Z.of_nat (snd acc)))
  end.

(** [["elevation_ft"].mean()] on a grouped frame. *)
Definition mean_elevation_ft (groups : list (string * DataFrame))
  : list (string * option Q) :=
  map (fun g => (fst g, mean (map elevation_ft (snd g)))) groups.

(** [pd.merge(left, right, on="iso_region")]: the inner join on the key. *)
Definition merge {A B : Type} (left : list (string * A)) (right : list (string * B))
  : list (string * A * B) :=
  flat_map (fun l =>
    flat_map (fun r =>
      if String.eqb (fst l) (fst r) then [(fst l, snd l, snd r)] else [])
      right) left.

(** [Series.value_counts()]: the count of each distinct non-NaN value, the
    most frequent first. *)
Definition value_counts (cells : list (option string)) : list (string * nat) :=
  let vals := dropna cells in
  sort (fun a b => Nat.leb (snd b) (snd a))
       (map (fun v => (v, count_occ string_dec vals v)) (unique vals)).

(** [counts.get(k, default)]. *)
Definition get_default {V : Type} (d : list (string * V)) (k : string) (default : V) : V :=
  match get d k with
  | Some v => v
  | None => default
  end.

(** ** The charts and the metrics *)

Definition create_map (data : DataFrame) : UI unit :=
  call (st_plotly_chart (scatter_geo data)).

Definition create_elevation_chart (data : DataFrame) : UI unit :=
  let avg_elevation := mean_elevation_ft (groupby_iso_region data) in
  call (st_plotly_chart (bar avg_elevation)).

Definition create_radar_chart (data : DataFrame) : UI unit :=
  let counts := size (groupby_iso_region data) in
  let avg_elevation := mean_elevation_ft (groupby_iso_region data) in
  let combined := merge counts avg_elevation in
  call (st_plotly_chart (scatterpolar combined)).

Definition create_boxplot (data : DataFrame) : UI unit :=
  call (st_plotly_chart (box data)).

Definition display_metrics (data : DataFrame) : UI unit :=
  let total_airports := len data in
  let type_counts := value_counts (map type data) in
  (call (st_markdown "### Key Metrics") ;;
   call (st_write_metric "Total Airports" total_airports) ;;
   call (st_write_metric "Large Airports" (get_default type_counts "large_airport" 0%nat)) ;;
   call (st_write_metric "Medium Airports" (get_default type_counts "medium_airport" 0%nat)) ;;
   call (st_write_metric "Small Airports" (get_default type_counts "small_airport" 0%nat)))%ui.

(** ** [main] *)

(** What the sidebar widgets return on this run of the script. *)
Record Widgets : Type := mkWidgets {
  selected_regions : list string;
  max_elevation : Z;
  selected_types : list string;
  commercial_only : bool
}.

Definition main (fs : FileSystem) (w : Widgets) : UI unit :=
  (call (st_title "**New England Airport Explorer**") ;;
   call (st_sidebar_header "Customize Your Filters") ;;
   call (st_sidebar_markdown "---") ;;
   call (st_sidebar_write "**Choose filters to explore airport data.**") ;;
   data <- load_data fs ;;
   if empty data then ret tt
   else
     call (st_sidebar_widget "Regions") ;;
     call (st_sidebar_widget "Maximum Elevation (ft)") ;;
     call (st_sidebar_widget "Airport Types") ;;
     call (st_sidebar_widget "Only Show Commercial Airports") ;;
     let service_filter := if commercial_only w then ["yes"] else ["yes"; "no"] in
     let filtered := filter_data (rows data) (selected_regions w)
                                 (inject_Z (max_elevation w))
                                 (selected_types w) service_filter in
     let filtered_data := fst filtered in
     call (st_subheader "**Visualizations**") ;;
     call (st_write "Explore the data through the following visualizations:") ;;
     call (st_markdown "#### Airport Map") ;;
     create_map filtered_data ;;
     call (st_markdown "#### Average Elevation by State") ;;
     create_elevation_chart filtered_data ;;
     call (st_markdown "#### Airport Distribution") ;;
     create_radar_chart filtered_data ;;
     call (st_markdown "#### Elevation Spread") ;;
     create_boxplot filtered_data ;;
     display_metrics filtered_data)%ui.

(** ** Sample inputs *)

Definition airport (i : Z) (region : string) (ty : string) (elev : option Q)
    (service : string) : Row :=
  mkRow i "" (Some ty) "" 0 0 elev (Some region) "" (Some service).

(** One airport at 10 ft, one stored at -5 ft, one with a blank elevation. *)
Definition csv_mixed : DataFrame :=
  [ airport 1 "US-MA" "large_airport" (Some 10) "yes";
    airport 2 "US-CT" "small_airport" None "no";
    airport 3 "US-ME" "small_airport" (Some (-5)) "no";
    airport 4 "US-NY" "small_airport" (Some 7) "no";
    airport 5 "US-VT" "heliport" (Some 300) "no";
    airport 6 "US-MA" "medium_airport" (Some 2500) "yes";
    airport 7 "US-MA" "small_airport" (Some 0) "no" ].

Definition all_regions : list string := values STATES.

Definition default_widgets : Widgets :=
  mkWidgets all_regions 2000 airport_types false.

(** Scenario C of the specification: a single airport stored at -5 ft. *)
Definition csv_below_sea_level : DataFrame :=
  [ airport 3 "US-ME" "small_airport" (Some (-5)) "no" ].

(** A file in which no row passes the region and type restrictions. *)
Definition csv_elsewhere : DataFrame :=
  [ airport 4 "US-NY" "small_airport" (Some 7) "no";
    airport 5 "US-VT" "heliport" (Some 300) "no" ].

(** Scenarios A and B of the specification: one large airport per
    recognized region, all at 500 ft. *)
Definition csv_six_regions : DataFrame :=
  map (fun e => airport (fst e) (snd e) "large_airport" (Some 500) "yes")
      (combine [1; 2; 3; 4; 5; 6]%Z (keys STATES)).

(** ** Vocabulary of the specification *)

(** The six region names of property P1. *)
Definition state_names : list string :=
  ["Connecticut"; "Maine"; "Massachusetts"; "New Hampshire"; "Rhode Island"; "Vermont"].

(** A row survives loading when its region code and its category are
    recognized. *)
Definition recognized (r : Row) : bool :=
  isin (iso_region r) (keys STATES) && isin (type r) airport_types.

(** The row as it is after loading: region code rewritten, elevation
    normalized. *)
Definition relabel (r : Row) : Row :=
  set_iso_region (map_dict STATES (iso_region r)) r.

Definition normalize (r : Row) : Row :=
  set_elevation_ft (clean_elevation (elevation_ft r)) r.

Definition mark_missing (r : Row) : Row := set_elevation_ft None r.

(** The four predicates of the filter policy, for one row. *)
Definition region_allowed (regions : list string) (r : Row) : Prop :=
  exists s, iso_region r = Some s /\ In s regions.

Definition below_ceiling (ceiling : Q) (r : Row) : Prop :=
  exists e, elevation_ft r = Some e /\ e <= ceiling.

Definition category_allowed (categories : list string) (r : Row) : Prop :=
  exists t, type r = Some t /\ In t categories.

Definition service_allowed (flags : list string) (r : Row) : Prop :=
  exists f, scheduled_service r = Some f /\ In f flags.

(** Elevation of a row: present and positive, present and not positive,
    missing. *)
Definition positive_elevation (r : Row) : Prop :=
  exists e, elevation_ft r = Some e /\ 0 < e.

Definition nonpositive_elevation (r : Row) : Prop :=
  exists e, elevation_ft r = Some e /\ e <= 0.

Definition missing_elevation (r : Row) : Prop := elevation_ft r = None.

(** Rows in non-decreasing order of a present elevation. *)
Definition elevation_le (a b : Row) : Prop :=
  match elevation_ft a, elevation_ft b with
  | Some x, Some y => x <= y
  | _, _ => False
  end.

(** The three kinds of stored elevation, as the loader tells them apart. *)
Definition is_nonpositive (r : Row) : bool :=
  match elevation_ft r with
  | Some x => negb (Qgtb x 0)
  | None => false
  end.

Definition is_positive (r : Row) : bool :=
  match elevation_ft r with
  | Some x => Qgtb x 0
  | None => false
  end.

Definition is_present (r : Row) : bool :=
  match elevation_ft r with
  | Some _ => true
  | None => false
  end.

Definition is_missing (r : Row) : bool := negb (is_present r).

(** The order of the rows after [sort_values]. *)
Definition sorted_before (a b : Row) : Prop :=
  elevation_leb (elevation_ft a) (elevation_ft b) = true.

(** A column of present values in non-decreasing order. *)
Fixpoint ascending (col : list (option Q)) : bool :=
  match col with
  | [] => true
  | None :: _ => false
  | Some x :: rest =>
      match rest with
      | Some y :: _ => Qle_bool x y
      | _ => true
      end && ascending rest
  end.

Fixpoint skip_missing (col : list (option Q)) : list (option Q) :=
  match col with
  | None :: rest => skip_missing rest
  | _ => col
  end.

(** The two placements property P4 allows for the missing marker. *)
Definition ordered_missing_first (data : DataFrame) : bool :=
  ascending (skip_missing (map elevation_ft data)).

Definition ordered_missing_last (data : DataFrame) : bool :=
  ascending (rev (skip_missing (rev (map elevation_ft data)))).

(** The arithmetic mean of a list of numbers, absent for the empty list. *)
Definition Qsum (xs : list Q) : Q := fold_right Qplus 0 xs.

Definition arithmetic_mean (xs : list Q) : option Q :=
  match xs with
  | [] => None
  | _ :: _ => Some (Qsum xs / inject_Z (Z.of_nat (length xs)))
  end.

(** The present elevations of the rows of one region. *)
Definition present_elevations (k : string) (data : DataFrame) : list Q :=
  dropna (map elevation_ft (filter (fun r => cell_is (iso_region r) k) data)).

Definition same_mean (a b : option Q) : Prop :=
  match a, b with
  | Some x, Some y => x == y
  | None, None => True
  | _, _ => False
  end.

Definition sum_counts (counts : list (string * nat)) : nat :=
  fold_right Nat.add 0%nat (map snd counts).

(** The calls of [main] that come before the data is looked at. *)
Definition page_header : list st_call :=
  [ st_title "**New England Airport Explorer**";
    st_sidebar_header "Customize Your Filters";
    st_sidebar_markdown "---";
    st_sidebar_write "**Choose filters to explore airport data.**" ].

(** A call that shows a widget, a chart or a metric: what [main] does only
    after filtering. *)
Definition downstream (c : st_call) : bool :=
  match c with
  | st_sidebar_widget _ | st_subheader _ | st_write _ | st_markdown _
  | st_write_metric _ _ | st_plotly_chart _ => true
  | _ => false
  end.

(** Two rows in the order of their elevations, where both are present. *)
Definition present_le (a b : Row) : Prop :=
  forall x y, elevation_ft a = Some x -> elevation_ft b = Some y -> x <= y.

(** The number of rows of one category. *)
Definition count_type (t : string) (data : DataFrame) : nat :=
  length (filter (fun r => cell_is (type r) t) data).

(** What [main] passes to [filter_data]. *)
Definition service_filter_of (w : Widgets) : list string :=
  if commercial_only w then ["yes"] else ["yes"; "no"].

Definition filtered_of (data : DataFrame) (w : Widgets) : DataFrame :=
  fst (filter_data data (selected_regions w) (inject_Z (max_elevation w))
                   (selected_types w) (service_filter_of w)).

(** The sidebar widgets, in the order [main] creates them. *)
Definition sidebar_widgets : list st_call :=
  [ st_sidebar_widget "Regions";
    st_sidebar_widget "Maximum Elevation (ft)";
    st_sidebar_widget "Airport Types";
    st_sidebar_widget "Only Show Commercial Airports" ].

(** The rows a call puts on the page: those of the map and of the box
    plot. *)
Definition shown_rows (c : st_call) : DataFrame :=
  match c with
  | st_plotly_chart (scatter_geo data) => data
  | st_plotly_chart (box data) => data
  | _ => []
  end.

(** The figures of a log, in order. *)
Fixpoint figures (calls : list st_call) : list Figure :=
  match calls with
  | [] => []
  | st_plotly_chart fig :: calls' => fig :: figures calls'
  | _ :: calls' => figures calls'
  end.

(** The metrics of a log, in order. *)
Fixpoint metrics (calls : list st_call) : list (string * nat) :=
  match calls with
  | [] => []
  | st_write_metric label n :: calls' => (label, n) :: metrics calls'
  | _ :: calls' => metrics calls'
  end.

Definition is_error (c : st_call) : bool :=
  match c with
  | st_error _ => true
  | _ => false
  end.

(** ** Cells and comparisons *)

Lemma isin_true (c : option string) (vals : list string) :
  isin c vals = true <-> exists s, c = Some s /\ In s vals.
Proof.
  destruct c as [s|]; simpl.
  - rewrite existsb_exists. split.
    + intros (x & Hx & He). apply String.eqb_eq in He. subst x. eauto.
    + intros (x & [= <-] & Hx). exists s. split; [assumption|apply String.eqb_refl].
  - split; [discriminate|]. intros (s & Hs & _). discriminate.
Qed.

Lemma cell_le_true (c : option Q) (y : Q) :
  cell_le c y = true <-> exists x, c = Some x /\ x <= y.
Proof.
  destruct c as [x|]; simpl.
  - rewrite Qle_bool_iff. split; [eauto|]. now intros (x' & [= <-] & H).
  - split; [discriminate|]. intros (x & Hx & _). discriminate.
Qed.

Lemma Qgtb_true (x y : Q) : Qgtb x y = true <-> y < x.
Proof.
  unfold Qgtb. change (y < x) with (x > y). rewrite Qgt_alt.
  destruct (x ?= y)%Q; split; congruence.
Qed.

Lemma Qgtb_false (x y : Q) : Qgtb x y = false <-> x <= y.
Proof.
  unfold Qgtb. rewrite Qle_alt.
  destruct (x ?= y)%Q; split; congruence.
Qed.

Lemma clean_elevation_spec (c : option Q) :
  (clean_elevation c = None /\ (c = None \/ exists x, c = Some x /\ x <= 0))
  \/ (exists x, c = Some x /\ clean_elevation c = Some x /\ 0 < x).
Proof.
  destruct c as [x|]; simpl; [|left; auto].
  destruct (Qgtb x 0) eqn:E.
  - right. exists x. apply Qgtb_true in E. auto.
  - left. apply Qgtb_false in E. split; [reflexivity|]. right. eauto.
Qed.

(** ** Insertion sort *)

Section SortingFacts.
Context {A : Type} (leb : A -> A -> bool).

Lemma insert_perm (x : A) (l : list A) : Permutation (insert leb x l) (x :: l).
Proof.
  induction l as [|h t IH]; simpl; [reflexivity|].
  destruct (leb x h); [reflexivity|].
  rewrite IH. apply perm_swap.
Qed.

Lemma sort_perm (l : list A) : Permutation (sort leb l) l.
Proof.
  induction l as [|h t IH]; simpl; [reflexivity|].
  rewrite insert_perm. now constructor.
Qed.

Hypothesis leb_total : forall a b, leb a b = true \/ leb b a = true.

Lemma insert_sorted (x : A) (l : list A) :
  Sorted (fun a b => leb a b = true) l ->
  Sorted (fun a b => leb a b = true) (insert leb x l).
Proof.
  induction 1 as [|h t Hs IH Hh]; simpl.
  - repeat constructor.
  - destruct (leb x h) eqn:E.
    + constructor; [constructor; assumption|]. constructor. exact E.
    + constructor; [assumption|].
      assert (Hhx : leb h x = true)
        by (destruct (leb_total x h); [congruence|assumption]).
      destruct Hh as [|b t' Hb]; simpl.
      * constructor. exact Hhx.
      * destruct (leb x b); constructor; assumption.
Qed.

Lemma sort_sorted (l : list A) : Sorted (fun a b => leb a b = true) (sort leb l).
Proof.
  induction l as [|h t IH]; simpl; [constructor|].
  now apply insert_sorted.
Qed.
End SortingFacts.

(** ** Facts about [filter] and [isin] *)

Lemma isin_incl (c : option string) (vals vals' : list string) :
  incl vals vals' -> isin c vals = true -> isin c vals' = true.
Proof.
  intros Hincl. rewrite !isin_true. intros (s & Hs & Hin). eauto.
Qed.

Lemma cell_le_mono (c : option Q) (y y' : Q) :
  y <= y' -> cell_le c y = true -> cell_le c y' = true.
Proof.
  intros Hy. rewrite !cell_le_true. intros (x & Hx & Hle).
  exists x. split; [assumption|]. now apply Qle_trans with y.
Qed.

Lemma filter_length_le {A : Type} (p q : A -> bool) (l : list A) :
  (forall x, p x = true -> q x = true) ->
  (length (filter p l) <= length (filter q l))%nat.
Proof.
  intros Hpq. induction l as [|x l IH]; simpl; [lia|].
  destruct (p x) eqn:Hp.
  - rewrite (Hpq x Hp). simpl. lia.
  - destruct (q x); simpl; lia.
Qed.

Lemma filter_filter {A : Type} (p q : A -> bool) (l : list A) :
  filter q (filter p l) = filter (fun x => p x && q x) l.
Proof.
  induction l as [|x l IH]; simpl; [reflexivity|].
  destruct (p x); simpl; [|assumption].
  destruct (q x); [f_equal|]; assumption.
Qed.

Lemma filter_data_In data regions elevation types service (r : Row) :
  In r (fst (filter_data data regions elevation types service)) <->
  In r data /\ region_allowed regions r /\ below_ceiling elevation r
  /\ category_allowed types r /\ service_allowed service r.
Proof.
  unfold filter_data; simpl. rewrite filter_In, !andb_true_iff, !isin_true, cell_le_true.
  unfold region_allowed, below_ceiling, category_allowed, service_allowed. tauto.
Qed.

(** ** Facts about [load_data] *)

Lemma load_data_value (raw : DataFrame) : rows (value (load_data (Some raw))) = preprocess raw.
Proof. reflexivity. Qed.

Lemma preprocess_perm (raw : DataFrame) :
  Permutation (preprocess raw)
              (map (fun r => normalize (relabel r)) (filter recognized raw)).
Proof.
  unfold preprocess, sort_values. rewrite filter_filter.
  rewrite <- (map_map relabel normalize).
  apply Permutation_map. apply sort_perm.
Qed.

Lemma preprocess_In (raw : DataFrame) (r : Row) :
  In r (preprocess raw) <->
  exists r0, In r0 raw /\ recognized r0 = true /\ r = normalize (relabel r0).
Proof.
  split.
  - intros H. apply (Permutation_in _ (preprocess_perm raw)) in H.
    apply in_map_iff in H. destruct H as (r0 & <- & H0).
    apply filter_In in H0. exists r0. tauto.
  - intros (r0 & Hin & Hrec & ->).
    apply (Permutation_in _ (Permutation_sym (preprocess_perm raw))).
    apply in_map_iff. exists r0. split; [reflexivity|].
    apply filter_In. tauto.
Qed.

Lemma STATES_names (code name : string) :
  get STATES code = Some name -> In (code, name) STATES /\ In name state_names.
Proof.
  unfold STATES; simpl.
  repeat match goal with
         | |- context [String.eqb code ?k] =>
             destruct (String.eqb_spec code k) as [->|_];
             [intros [= <-]; split; simpl; auto 10|]
         end.
  discriminate.
Qed.

Lemma STATES_get_key (code : string) :
  In code (keys STATES) -> exists name, get STATES code = Some name.
Proof.
  simpl. intros H.
  repeat (destruct H as [<-|H]; [eexists; reflexivity|]).
  contradiction.
Qed.

(** ** The filter engine *)

(** C2 (P5, filter conjunction): every row of the subset that [filter_data]
    returns is a row of the table and satisfies the four predicates together
    (its region is an allowed region, its elevation is present and at most
    the ceiling, its category is an allowed category, its service flag is an
    allowed flag), and the returned count is the number of rows of the
    subset. *)
Theorem filter_data_conjunction data regions elevation types service :
  Forall (fun r =>
            In r data /\ region_allowed regions r /\ below_ceiling elevation r
            /\ category_allowed types r /\ service_allowed service r)
         (fst (filter_data data regions elevation types service))
  /\ snd (filter_data data regions elevation types service)
     = length (fst (filter_data data regions elevation types service)).
Proof.
  split; [|reflexivity].
  apply Forall_forall. intros r Hr. now apply filter_data_In.
Qed.

(** C3 (P6, filter monotonicity): enlarging one of the four criteria (more
    allowed regions, a higher ceiling, more allowed categories, more allowed
    service flags) with the other three unchanged does not decrease the
    count that [filter_data] returns. *)
Theorem filter_data_monotone data regions regions' elevation elevation'
    types types' service service' :
  incl regions regions' ->
  elevation <= elevation' ->
  incl types types' ->
  incl service service' ->
  (snd (filter_data data regions elevation types service)
   <= snd (filter_data data regions' elevation types service))%nat
  /\ (snd (filter_data data regions elevation types service)
      <= snd (filter_data data regions elevation' types service))%nat
  /\ (snd (filter_data data regions elevation types service)
      <= snd (filter_data data regions elevation types' service))%nat
  /\ (snd (filter_data data regions elevation types service)
      <= snd (filter_data data regions elevation types service'))%nat.
Proof.
  intros Hr He Ht Hs. unfold filter_data, len; simpl.
  repeat split; apply filter_length_le; intros r;
    rewrite !andb_true_iff; intros [[[H1 H2] H3] H4]; repeat split;
    eauto using isin_incl, cell_le_mono.
Qed.

Lemma filter_data_monotone_witness :
  (snd (filter_data (preprocess csv_mixed) ["Massachusetts"] 2000
                    ["large_airport"] ["yes"])
   <= snd (filter_data (preprocess csv_mixed) all_regions 2000
                       ["large_airport"] ["yes"]))%nat
  /\ (snd (filter_data (preprocess csv_mixed) ["Massachusetts"] 2000
                       ["large_airport"] ["yes"])
      <= snd (filter_data (preprocess csv_mixed) ["Massachusetts"] 3000
                          ["large_airport"] ["yes"]))%nat
  /\ (snd (filter_data (preprocess csv_mixed) ["Massachusetts"] 2000
                       ["large_airport"] ["yes"])
      <= snd (filter_data (preprocess csv_mixed) ["Massachusetts"] 2000
                          airport_types ["yes"]))%nat
  /\ (snd (filter_data (preprocess csv_mixed) ["Massachusetts"] 2000
                       ["large_airport"] ["yes"])
      <= snd (filter_data (preprocess csv_mixed) ["Massachusetts"] 2000
                          ["large_airport"] ["yes"; "no"]))%nat.
Proof.
  apply (filter_data_monotone (preprocess csv_mixed)
           ["Massachusetts"] all_regions 2000 3000
           ["large_airport"] airport_types ["yes"] ["yes"; "no"]).
  - intros s [<-|[]]. simpl. auto.
  - apply Qle_bool_iff. reflexivity.
  - intros s [<-|[]]. simpl. auto.
  - intros s [<-|[]]. simpl. auto.
Defined.

(** C1, as the code has it: a row of the loaded table whose stored elevation
    was not positive carries the missing marker after the load, and
    [filter_data] leaves it out of the subset whatever the ceiling and the
    other criteria are. *)
Theorem missing_elevation_excluded raw regions elevation types service (r0 : Row) :
  In r0 raw ->
  recognized r0 = true ->
  nonpositive_elevation r0 ->
  In (normalize (relabel r0)) (rows (value (load_data (Some raw))))
  /\ missing_elevation (normalize (relabel r0))
  /\ ~ In (normalize (relabel r0))
         (fst (filter_data (rows (value (load_data (Some raw))))
                           regions elevation types service)).
Proof.
  intros Hin Hrec (e & He & Hle).
  assert (Hmiss : missing_elevation (normalize (relabel r0))).
  { unfold missing_elevation; simpl. rewrite He; simpl.
    apply Qgtb_false in Hle. now rewrite Hle. }
  repeat split.
  - rewrite load_data_value. apply preprocess_In. eauto.
  - exact Hmiss.
  - intros H. apply filter_data_In in H.
    destruct H as (_ & _ & (x & Hx & _) & _). congruence.
Qed.

Lemma missing_elevation_excluded_witness :
  In (normalize (relabel (airport 3 "US-ME" "small_airport" (Some (-5)) "no")))
     (rows (value (load_data (Some csv_below_sea_level))))
  /\ missing_elevation
       (normalize (relabel (airport 3 "US-ME" "small_airport" (Some (-5)) "no")))
  /\ ~ In (normalize (relabel (airport 3 "US-ME" "small_airport" (Some (-5)) "no")))
         (fst (filter_data (rows (value (load_data (Some csv_below_sea_level))))
                           all_regions 2000 airport_types ["yes"; "no"])).
Proof.
  apply (missing_elevation_excluded csv_below_sea_level all_regions 2000
           airport_types ["yes"; "no"]
           (airport 3 "US-ME" "small_airport" (Some (-5)) "no")).
  - simpl. left. reflexivity.
  - reflexivity.
  - exists (-5). split; [reflexivity|]. apply Qle_bool_iff. reflexivity.
Defined.

(** C1, as stated, fails on Scenario C: the airport stored at -5 ft is in the
    loaded table with the missing marker, and the filter with all six
    regions, ceiling 2000, the three categories and both service flags
    returns the empty subset. *)
Lemma missing_elevation_filtered_out :
  rows (value (load_data (Some csv_below_sea_level)))
  = [ airport 3 "Maine" "small_airport" None "no" ]
  /\ filter_data (rows (value (load_data (Some csv_below_sea_level))))
                 all_regions 2000 airport_types ["yes"; "no"]
     = ([], 0%nat)
  /\ ~ In (airport 3 "Maine" "small_airport" None "no")
         (fst (filter_data (rows (value (load_data (Some csv_below_sea_level))))
                           all_regions 2000 airport_types ["yes"; "no"])).
Proof.
  repeat split. intros [].
Qed.

(** ** The loader *)

(** C7 (P3, elevation normalization): in the table that [load_data] returns,
    every row has either the missing marker or a present elevation strictly
    greater than zero. *)
Theorem load_data_elevation_normalized (fs : FileSystem) :
  Forall (fun r => missing_elevation r \/ positive_elevation r)
         (rows (value (load_data fs))).
Proof.
  destruct fs as [raw|]; [|constructor].
  rewrite load_data_value. apply Forall_forall. intros r Hr.
  apply preprocess_In in Hr. destruct Hr as (r0 & _ & _ & ->).
  unfold missing_elevation, positive_elevation; simpl.
  destruct (clean_elevation_spec (elevation_ft r0)) as [[H _]|(x & _ & H & Hx)].
  - left. exact H.
  - right. eauto.
Qed.

(** C9 (P1, region closure): every row of the table that [load_data] returns
    has a region name among the six state names, and the table consists of
    exactly the rows of the file with a recognized region code (and
    category), each with its code rewritten through [STATES]; the other
    rows are dropped. *)
Theorem load_data_region_closure (raw : DataFrame) :
  Forall (fun r =>
            exists r0 code name,
              In r0 raw /\ iso_region r0 = Some code /\ In (code, name) STATES
              /\ id r = id r0 /\ iso_region r = Some name /\ In name state_names)
         (rows (value (load_data (Some raw))))
  /\ Permutation (rows (value (load_data (Some raw))))
                 (map (fun r0 => normalize (relabel r0))
                      (filter (fun r0 => isin (iso_region r0) (keys STATES)
                                         && isin (type r0) airport_types) raw))
  /\ rows (value (load_data None)) = [].
Proof.
  rewrite load_data_value. split; [|split; [apply preprocess_perm|reflexivity]].
  apply Forall_forall. intros r Hr.
  apply preprocess_In in Hr. destruct Hr as (r0 & Hin & Hrec & ->).
  apply andb_true_iff in Hrec. destruct Hrec as [Hreg _].
  apply isin_true in Hreg. destruct Hreg as (code & Hcode & Hkey).
  destruct (STATES_get_key code Hkey) as (name & Hname).
  destruct (STATES_names code name Hname) as [Hst Hnm].
  exists r0, code, name. simpl. rewrite Hcode; simpl. auto 10.
Qed.

(** ** The order of the loaded table *)

Lemma elevation_leb_total (a b : option Q) :
  elevation_leb a b = true \/ elevation_leb b a = true.
Proof.
  destruct a as [x|], b as [y|]; simpl; auto.
  rewrite !Qle_bool_iff.
  destruct (Qlt_le_dec x y) as [H|H]; [left; now apply Qlt_le_weak|now right].
Qed.

Lemma elevation_leb_trans (a b c : option Q) :
  elevation_leb a b = true -> elevation_leb b c = true -> elevation_leb a c = true.
Proof.
  destruct a as [x|], b as [y|], c as [z|]; simpl; try congruence.
  rewrite !Qle_bool_iff. apply Qle_trans.
Qed.

Lemma sort_values_sorted (data : DataFrame) :
  StronglySorted sorted_before (sort_values data).
Proof.
  apply Sorted_StronglySorted.
  - intros a b c. apply elevation_leb_trans.
  - apply (sort_sorted (fun a b => elevation_leb (elevation_ft a) (elevation_ft b))).
    intros a b. apply elevation_leb_total.
Qed.

Section Split.
Context {A : Type} (R : A -> A -> Prop) (p : A -> bool).
Hypothesis p_down : forall a b, R a b -> p b = true -> p a = true.

Lemma filter_none (l : list A) :
  Forall (fun b => p b = false) l ->
  filter p l = [] /\ filter (fun b => negb (p b)) l = l.
Proof.
  induction 1 as [|b l Hb _ [IH1 IH2]]; simpl; [auto|].
  rewrite Hb; simpl. split; [assumption|now f_equal].
Qed.

Lemma sorted_split (l : list A) :
  StronglySorted R l -> l = filter p l ++ filter (fun b => negb (p b)) l.
Proof.
  induction 1 as [|a l Hs IH Ha]; simpl; [reflexivity|].
  destruct (p a) eqn:Hp; simpl.
  - now f_equal.
  - assert (Hl : Forall (fun b => p b = false) l).
    { apply Forall_forall. intros b Hb.
      destruct (p b) eqn:Hpb; [|reflexivity].
      rewrite Forall_forall in Ha. rewrite (p_down a b (Ha b Hb) Hpb) in Hp.
      discriminate. }
    destruct (filter_none l Hl) as [-> ->]. reflexivity.
Qed.
End Split.

Lemma StronglySorted_filter {A : Type} (R : A -> A -> Prop) (p : A -> bool) (l : list A) :
  StronglySorted R l -> StronglySorted R (filter p l).
Proof.
  induction 1 as [|a l Hs IH Ha]; simpl; [constructor|].
  destruct (p a); [|assumption].
  constructor; [assumption|].
  rewrite Forall_forall in *. intros b Hb. apply Ha.
  apply filter_In in Hb. tauto.
Qed.

Lemma sort_values_split (data : DataFrame) :
  sort_values data
  = filter is_nonpositive (sort_values data)
    ++ filter is_positive (sort_values data)
    ++ filter is_missing (sort_values data).
Proof.
  pose proof (sort_values_sorted data) as Hs.
  set (s := sort_values data) in *.
  assert (H1 : s = filter is_nonpositive s ++ filter (fun r => negb (is_nonpositive r)) s).
  { apply (sorted_split sorted_before); [|assumption].
    unfold sorted_before, is_nonpositive. intros a b.
    destruct (elevation_ft a) as [x|], (elevation_ft b) as [y|]; simpl; try congruence.
    rewrite Qle_bool_iff, !negb_true_iff, !Qgtb_false.
    intros Hxy Hy. now apply Qle_trans with y. }
  assert (H2 : filter (fun r => negb (is_nonpositive r)) s
               = filter is_positive s ++ filter is_missing s).
  { rewrite (sorted_split sorted_before is_present) at 1.
    - rewrite !filter_filter. f_equal; apply filter_ext; intros r;
        unfold is_nonpositive, is_positive, is_missing, is_present;
        destruct (elevation_ft r) as [x|]; simpl; try reflexivity.
      + rewrite negb_involutive. now rewrite andb_true_r.
      + now rewrite andb_false_r.
    - unfold sorted_before, is_present. intros a b.
      destruct (elevation_ft a) as [x|], (elevation_ft b) as [y|]; simpl; congruence.
    - now apply StronglySorted_filter. }
  rewrite H1 at 1. now rewrite H2.
Qed.

Lemma normalize_nonpositive (r : Row) :
  is_nonpositive r = true -> normalize r = mark_missing r /\ nonpositive_elevation r.
Proof.
  unfold is_nonpositive, normalize, mark_missing, nonpositive_elevation, clean_elevation.
  destruct (elevation_ft r) as [x|]; [|discriminate].
  rewrite negb_true_iff. intros H. rewrite H. split; [reflexivity|].
  exists x. split; [reflexivity|]. now apply Qgtb_false.
Qed.

Lemma normalize_positive (r : Row) :
  is_positive r = true -> normalize r = r /\ positive_elevation r.
Proof.
  unfold is_positive, normalize, positive_elevation, clean_elevation.
  destruct r as [i idt ty nm la lo [x|] reg mu sv]; simpl; [|discriminate].
  intros H. rewrite H. split; [reflexivity|].
  exists x. split; [reflexivity|]. now apply Qgtb_true.
Qed.

Lemma normalize_missing (r : Row) :
  is_missing r = true -> normalize r = mark_missing r /\ missing_elevation r.
Proof.
  unfold is_missing, is_present, normalize, mark_missing, missing_elevation.
  destruct (elevation_ft r) as [x|]; [discriminate|]. auto.
Qed.

Lemma sorted_before_present (l : DataFrame) :
  Forall positive_elevation l ->
  StronglySorted sorted_before l -> StronglySorted elevation_le l.
Proof.
  intros Hp. induction 1 as [|a l Hs IH Ha]; [constructor|].
  inversion Hp as [|? ? (x & Hx & _) Hp']; subst.
  constructor; [auto|].
  rewrite Forall_forall in *. intros b Hb.
  specialize (Ha b Hb). destruct (Hp' b Hb) as (y & Hy & _).
  unfold sorted_before, elevation_le in *. rewrite Hx, Hy in *.
  now apply Qle_bool_iff.
Qed.

(** C4, as the code has it: the table that [load_data] returns lists first
    the rows whose stored elevation was not positive, now with the missing
    marker, then the rows with a positive elevation in non-decreasing order
    of elevation, then the rows whose elevation was blank in the file. *)
Theorem load_data_order (raw : DataFrame) :
  exists low mid high : DataFrame,
    Permutation (low ++ mid ++ high) (map relabel (filter recognized raw))
    /\ rows (value (load_data (Some raw)))
       = map mark_missing low ++ mid ++ map mark_missing high
    /\ Forall nonpositive_elevation low
    /\ Forall positive_elevation mid
    /\ Forall missing_elevation high
    /\ StronglySorted elevation_le mid.
Proof.
  set (kept := map relabel (filter recognized raw)).
  exists (filter is_nonpositive (sort_values kept)),
         (filter is_positive (sort_values kept)),
         (filter is_missing (sort_values kept)).
  assert (Hlow : forall r, In r (filter is_nonpositive (sort_values kept)) ->
                           normalize r = mark_missing r /\ nonpositive_elevation r)
    by (intros r Hr; apply filter_In in Hr; now apply normalize_nonpositive).
  assert (Hmid : forall r, In r (filter is_positive (sort_values kept)) ->
                           normalize r = r /\ positive_elevation r)
    by (intros r Hr; apply filter_In in Hr; now apply normalize_positive).
  assert (Hhigh : forall r, In r (filter is_missing (sort_values kept)) ->
                            normalize r = mark_missing r /\ missing_elevation r)
    by (intros r Hr; apply filter_In in Hr; now apply normalize_missing).
  assert (Hpos : Forall positive_elevation (filter is_positive (sort_values kept)))
    by (apply Forall_forall; intros r Hr; now apply Hmid).
  split; [|split; [|split; [|split; [|split]]]].
  - rewrite <- sort_values_split. apply sort_perm.
  - rewrite load_data_value. unfold preprocess. rewrite filter_filter.
    fold recognized. fold relabel. fold kept. fold normalize.
    rewrite (sort_values_split kept) at 1. rewrite !map_app.
    f_equal; [|f_equal].
    + apply map_ext_in. intros r Hr. now apply Hlow.
    + rewrite <- (map_id (filter is_positive (sort_values kept))) at 2.
      apply map_ext_in. intros r Hr. now apply Hmid.
    + apply map_ext_in. intros r Hr. now apply Hhigh.
  - apply Forall_forall. intros r Hr. now apply Hlow.
  - exact Hpos.
  - apply Forall_forall. intros r Hr. now apply Hhigh.
  - apply sorted_before_present; [exact Hpos|].
    apply StronglySorted_filter. apply sort_values_sorted.
Qed.

(** C4, as stated, fails on a file that has both a non-positive and a blank
    elevation: the loaded elevation column has the missing marker at both
    ends, so the table is ordered neither with the missing rows first nor
    with the missing rows last. *)
Lemma load_data_missing_at_both_ends :
  map elevation_ft (rows (value (load_data (Some csv_mixed))))
  = [None; None; Some 10; Some 2500; None]
  /\ ordered_missing_first (rows (value (load_data (Some csv_mixed)))) = false
  /\ ordered_missing_last (rows (value (load_data (Some csv_mixed)))) = false.
Proof.
  repeat split.
Qed.

(** ** Grouping *)

Lemma unique_In (l : list string) (x : string) : In x (unique l) <-> In x l.
Proof.
  unfold unique. rewrite <- in_rev, nodup_In, <- in_rev. reflexivity.
Qed.

Lemma unique_NoDup (l : list string) : NoDup (unique l).
Proof.
  unfold unique. apply NoDup_rev. apply NoDup_nodup.
Qed.

Lemma dropna_In {A : Type} (cells : list (option A)) (a : A) :
  In a (dropna cells) <-> In (Some a) cells.
Proof.
  induction cells as [|[b|] cells IH]; simpl.
  - reflexivity.
  - rewrite IH. split; intros [H|H]; auto; left; congruence.
  - rewrite IH. split; [auto|]. intros [H|H]; [discriminate|assumption].
Qed.

Lemma group_keys_NoDup (data : DataFrame) :
  NoDup (map fst (groupby_iso_region data)).
Proof.
  unfold groupby_iso_region. rewrite map_map; simpl. rewrite map_id.
  apply (Permutation_NoDup (Permutation_sym (sort_perm String.leb _))).
  apply unique_NoDup.
Qed.

Lemma group_keys_In (data : DataFrame) (k : string) :
  In k (map fst (groupby_iso_region data)) <->
  exists r, In r data /\ iso_region r = Some k.
Proof.
  unfold groupby_iso_region. rewrite map_map; simpl. rewrite map_id.
  split.
  - intros H. apply (Permutation_in _ (sort_perm String.leb _)) in H.
    apply unique_In, dropna_In, in_map_iff in H.
    destruct H as (r & Hr & Hin). eauto.
  - intros (r & Hin & Hr).
    apply (Permutation_in _ (Permutation_sym (sort_perm String.leb _))).
    apply unique_In, dropna_In, in_map_iff. eauto.
Qed.

Lemma filter_all {A : Type} (p : A -> bool) (l : list A) :
  (forall x, In x l -> p x = true) -> filter p l = l.
Proof.
  induction l as [|x l IH]; simpl; intros H; [reflexivity|].
  rewrite (H x (or_introl eq_refl)). f_equal. auto.
Qed.

Lemma one_group_more (k : string) (K : list string) (data : DataFrame) :
  ~ In k K ->
  (length (filter (fun r => cell_is (iso_region r) k) data)
   + length (filter (fun r => isin (iso_region r) K) data))%nat
  = length (filter (fun r => isin (iso_region r) (k :: K)) data).
Proof.
  intros Hk. induction data as [|r data IH]; simpl; [reflexivity|].
  destruct (iso_region r) as [s|]; simpl; [|assumption].
  destruct (String.eqb_spec s k) as [->|Hne]; simpl.
  - assert (Hf : existsb (String.eqb k) K = false).
    { apply not_true_is_false. intros H. apply Hk.
      apply existsb_exists in H. destruct H as (x & Hx & He).
      apply String.eqb_eq in He. now subst. }
    rewrite Hf. simpl. now rewrite IH.
  - destruct (existsb (String.eqb s) K); simpl; rewrite <- IH; lia.
Qed.

Lemma group_sizes_sum (K : list string) (data : DataFrame) :
  NoDup K ->
  fold_right Nat.add 0%nat
    (map (fun k => length (filter (fun r => cell_is (iso_region r) k) data)) K)
  = length (filter (fun r => isin (iso_region r) K) data).
Proof.
  induction 1 as [|k K Hk Hnd IH]; simpl.
  - induction data as [|r data IHd]; simpl; [reflexivity|].
    now destruct (iso_region r).
  - rewrite IH. now apply one_group_more.
Qed.

Lemma region_counts_sum (data : DataFrame) :
  Forall (fun r => exists s, iso_region r = Some s) data ->
  sum_counts (size (groupby_iso_region data)) = len data.
Proof.
  intros Hall. pose proof (group_keys_NoDup data) as Hnd.
  assert (Hin := group_keys_In data).
  unfold sum_counts, size, len in *. unfold groupby_iso_region in *.
  rewrite !map_map in *; simpl in *. rewrite map_id in *.
  rewrite group_sizes_sum by assumption.
  f_equal. apply filter_all. intros r Hr.
  rewrite Forall_forall in Hall. destruct (Hall r Hr) as (s & Hs).
  apply isin_true. exists s. split; [assumption|].
  apply Hin. eauto.
Qed.

(** ** Counting values *)

Lemma get_In {V : Type} (d : list (string * V)) (k : string) (v : V) :
  NoDup (keys d) -> In (k, v) d -> get d k = Some v.
Proof.
  induction d as [|[k' v'] d IH]; simpl; [contradiction|].
  intros Hnd [H|H]; inversion Hnd; subst.
  - injection H as -> ->. now rewrite String.eqb_refl.
  - destruct (String.eqb_spec k k') as [->|_]; [|auto].
    exfalso. match goal with Hn : ~ In _ _ |- _ => apply Hn end.
    change k' with (fst (k', v)). now apply in_map.
Qed.

Lemma get_not_In {V : Type} (d : list (string * V)) (k : string) :
  ~ In k (keys d) -> get d k = None.
Proof.
  induction d as [|[k' v'] d IH]; simpl; [reflexivity|].
  intros H. destruct (String.eqb_spec k k') as [->|_]; [tauto|].
  apply IH. tauto.
Qed.

Lemma value_counts_get (cells : list (option string)) (v : string) :
  get_default (value_counts cells) v 0%nat = count_occ string_dec (dropna cells) v.
Proof.
  unfold get_default, value_counts.
  set (vals := dropna cells).
  set (table := map (fun v => (v, count_occ string_dec vals v)) (unique vals)).
  set (sorted := sort _ table).
  assert (Hperm : Permutation sorted table) by apply sort_perm.
  assert (Hkeys : keys table = unique vals).
  { unfold keys, table. rewrite map_map; simpl. apply map_id. }
  assert (Hnd : NoDup (keys sorted)).
  { apply (Permutation_NoDup (Permutation_map fst (Permutation_sym Hperm))).
    fold (keys table). rewrite Hkeys. apply unique_NoDup. }
  destruct (in_dec string_dec v vals) as [Hin|Hout].
  - rewrite (get_In sorted v (count_occ string_dec vals v)); [reflexivity|assumption|].
    apply (Permutation_in _ (Permutation_sym Hperm)).
    apply in_map_iff. exists v. split; [reflexivity|]. now apply unique_In.
  - rewrite get_not_In.
    + symmetry. now apply count_occ_not_In.
    + intros H. apply Hout. apply unique_In. rewrite <- Hkeys.
      apply (Permutation_in _ (Permutation_map fst Hperm)). exact H.
Qed.

Lemma category_counts_sum (vals : list string) :
  Forall (fun v => In v airport_types) vals ->
  (count_occ string_dec vals "large_airport"
   + count_occ string_dec vals "medium_airport"
   + count_occ string_dec vals "small_airport")%nat
  = length vals.
Proof.
  induction 1 as [|v vals Hv _ IH]; [reflexivity|].
  cbn [count_occ length].
  destruct (string_dec v "large_airport") as [E1|E1],
           (string_dec v "medium_airport") as [E2|E2],
           (string_dec v "small_airport") as [E3|E3];
    try (rewrite E1 in *; discriminate);
    try (rewrite E2 in *; discriminate);
    try lia.
  simpl in Hv. intuition congruence.
Qed.

Lemma dropna_all {A : Type} (cells : list (option A)) :
  Forall (fun c => exists a, c = Some a) cells ->
  length (dropna cells) = length cells.
Proof.
  induction 1 as [|c cells (a & ->) _ IH]; simpl; [reflexivity|now f_equal].
Qed.

(** C5 (P7, aggregation consistency): over a filtered set, the per-region
    row counts add up to the number of rows of the set, and so do the counts
    of the three categories that the metrics show. *)
Theorem aggregation_consistency (fs : FileSystem) regions elevation types service :
  sum_counts
    (size (groupby_iso_region
             (fst (filter_data (rows (value (load_data fs))) regions elevation types service))))
  = len (fst (filter_data (rows (value (load_data fs))) regions elevation types service))
  /\ (get_default
        (value_counts
           (map type (fst (filter_data (rows (value (load_data fs)))
                                       regions elevation types service))))
        "large_airport" 0
      + get_default
          (value_counts
             (map type (fst (filter_data (rows (value (load_data fs)))
                                         regions elevation types service))))
          "medium_airport" 0
      + get_default
          (value_counts
             (map type (fst (filter_data (rows (value (load_data fs)))
                                         regions elevation types service))))
          "small_airport" 0)%nat
     = len (fst (filter_data (rows (value (load_data fs))) regions elevation types service)).
Proof.
  set (filtered := fst (filter_data (rows (value (load_data fs))) regions elevation types service)).
  assert (Hrows : forall r, In r filtered ->
            (exists s, iso_region r = Some s)
            /\ (exists t, type r = Some t /\ In t airport_types)).
  { intros r Hr. apply filter_data_In in Hr.
    destruct Hr as (Hin & (s & Hs & _) & _). split; [eauto|].
    destruct fs as [raw|]; [|contradiction].
    rewrite load_data_value in Hin. apply preprocess_In in Hin.
    destruct Hin as (r0 & _ & Hrec & ->).
    apply andb_true_iff in Hrec. destruct Hrec as [_ Hty].
    apply isin_true in Hty. exact Hty. }
  split.
  - apply region_counts_sum. apply Forall_forall. intros r Hr. now apply Hrows.
  - rewrite !value_counts_get. rewrite category_counts_sum.
    + unfold len. rewrite dropna_all, length_map; [reflexivity|].
      apply Forall_forall. intros c Hc. apply in_map_iff in Hc.
      destruct Hc as (r & <- & Hr). destruct (Hrows r Hr) as (_ & t & Ht & _). eauto.
    + apply Forall_forall. intros t Ht. apply dropna_In, in_map_iff in Ht.
      destruct Ht as (r & Hty & Hr). destruct (Hrows r Hr) as (_ & t' & Ht' & Hin).
      congruence.
Qed.

(** ** The mean *)

Lemma mean_fold (cells : list (option Q)) (acc : Q * nat) :
  fst (fold_left mean_step cells acc) == fst acc + Qsum (dropna cells)
  /\ snd (fold_left mean_step cells acc) = (snd acc + length (dropna cells))%nat.
Proof.
  revert acc. induction cells as [|[x|] cells IH]; intros acc; simpl.
  - split; [ring|lia].
  - destruct (IH (fst acc + x, S (snd acc))) as [H1 H2]. simpl in *.
    split; [rewrite H1; ring|rewrite H2; lia].
  - apply IH.
Qed.

Lemma mean_arithmetic (cells : list (option Q)) :
  same_mean (mean cells) (arithmetic_mean (dropna cells)).
Proof.
  unfold mean. destruct (mean_fold cells (0, 0%nat)) as [H1 H2]. simpl in *.
  rewrite H2. destruct (dropna cells) as [|x xs] eqn:E; simpl.
  - exact I.
  - rewrite H1. simpl. rewrite Qplus_0_l. reflexivity.
Qed.

Lemma dropna_nil {A : Type} (cells : list (option A)) :
  Forall (fun c => c = None) cells -> dropna cells = [].
Proof.
  induction 1 as [|c cells -> _ IH]; simpl; auto.
Qed.

(** C6 (per-region mean elevation): for every region of the set, the mean
    that the charts receive is the arithmetic mean of the present elevations
    of that region's rows, rows with the missing marker counting neither in
    the sum nor in the number of values; a region all of whose rows have the
    missing marker still has an entry, and its mean is absent, not zero. *)
Theorem group_mean_elevation (data : DataFrame) :
  Forall (fun g =>
            same_mean (snd g) (arithmetic_mean (present_elevations (fst g) data))
            /\ ((forall r, In r data -> iso_region r = Some (fst g) ->
                           missing_elevation r) ->
                snd g = None))
         (mean_elevation_ft (groupby_iso_region data))
  /\ (forall k, In k (map fst (mean_elevation_ft (groupby_iso_region data))) <->
                exists r, In r data /\ iso_region r = Some k).
Proof.
  split.
  - apply Forall_forall. intros g Hg.
    unfold mean_elevation_ft, groupby_iso_region in Hg.
    rewrite map_map in Hg. apply in_map_iff in Hg.
    destruct Hg as (k & <- & _). simpl.
    pose proof (mean_arithmetic
                  (map elevation_ft (filter (fun r => cell_is (iso_region r) k) data)))
      as Hmean.
    split; [exact Hmean|].
    intros Hall. rewrite dropna_nil in Hmean.
    + simpl in Hmean. now destruct (mean _).
    + apply Forall_forall. intros c Hc. apply in_map_iff in Hc.
      destruct Hc as (r & <- & Hr). apply filter_In in Hr. destruct Hr as [Hin Hk].
      apply Hall; [assumption|].
      unfold cell_is in Hk. destruct (iso_region r) as [s|]; [|discriminate].
      apply String.eqb_eq in Hk. now subst.
  - intros k. rewrite <- group_keys_In.
    unfold mean_elevation_ft. rewrite map_map. simpl. reflexivity.
Qed.

(** ** The pipeline *)

(** C8 (Scenario D): when the file is absent, [load_data] reports the
    file-not-found error and hands back the empty table; [main] then stops:
    it shows the page header and the error message and nothing else, so no
    widget, filter, chart or metric step runs, and it ends normally. *)
Theorem missing_source_skips_pipeline (w : Widgets) :
  read_csv None = Raise FileNotFoundError
  /\ load_data None = (pd_DataFrame, [st_error file_not_found_message])
  /\ empty (value (load_data None)) = true
  /\ main None w = (tt, page_header ++ [st_error file_not_found_message])
  /\ existsb downstream (log (main None w)) = false.
Proof.
  repeat split.
Qed.

Lemma recognized_none (raw : DataFrame) :
  Forall (fun r => recognized r = false) raw -> preprocess raw = [].
Proof.
  intros H. apply Permutation_nil. apply Permutation_sym.
  rewrite preprocess_perm.
  replace (filter recognized raw) with (@nil Row); [reflexivity|].
  symmetry. induction H as [|r raw Hr _ IH]; simpl; [reflexivity|].
  now rewrite Hr.
Qed.

(** C10, as the code has it: when the file is missing [load_data] returns
    [pd.DataFrame()], a frame without columns, and when the file is read but
    none of its rows has a recognized region and category it returns a frame
    with the file's columns and no row; both are empty for [data.empty], the
    only test [main] makes, so [main] stops after the page header (and the
    error message, in the first case) in both: no widget, filter, chart or
    metric step runs. *)
Theorem empty_load_skips_pipeline (raw : DataFrame) (w : Widgets) :
  Forall (fun r => recognized r = false) raw ->
  value (load_data (Some raw)) = mkFrame csv_columns []
  /\ value (load_data None) = mkFrame [] []
  /\ empty (value (load_data (Some raw))) = true
  /\ empty (value (load_data None)) = true
  /\ log (main (Some raw) w) = page_header
  /\ log (main None w) = page_header ++ [st_error file_not_found_message]
  /\ existsb downstream (log (main (Some raw) w)) = false
  /\ existsb downstream (log (main None w)) = false.
Proof.
  intros H. apply recognized_none in H.
  assert (Hload : value (load_data (Some raw)) = mkFrame csv_columns []).
  { unfold load_data, read_csv. simpl. now rewrite H. }
  assert (Hmain : log (main (Some raw) w) = page_header).
  { unfold main, load_data, read_csv. simpl. rewrite H. reflexivity. }
  rewrite Hload, Hmain. repeat split.
Qed.

Lemma empty_load_skips_pipeline_witness :
  value (load_data (Some csv_elsewhere)) = mkFrame csv_columns []
  /\ value (load_data None) = mkFrame [] []
  /\ empty (value (load_data (Some csv_elsewhere))) = true
  /\ empty (value (load_data None)) = true
  /\ log (main (Some csv_elsewhere) default_widgets) = page_header
  /\ log (main None default_widgets)
     = page_header ++ [st_error file_not_found_message]
  /\ existsb downstream (log (main (Some csv_elsewhere) default_widgets)) = false
  /\ existsb downstream (log (main None default_widgets)) = false.
Proof.
  apply (empty_load_skips_pipeline csv_elsewhere default_widgets).
  repeat constructor.
Defined.

(** C10, as stated, fails: for a file none of whose rows is recognized the
    frame that [load_data] returns is not the one it returns for a missing
    file; the first has the nine columns of the file, the second has none,
    so the two can be told apart. *)
Lemma empty_frames_differ :
  value (load_data (Some csv_elsewhere)) <> value (load_data None)
  /\ columns (value (load_data (Some csv_elsewhere)))
     = ["ident"; "type"; "name"; "latitude_deg"; "longitude_deg"; "elevation_ft";
        "iso_region"; "municipality"; "scheduled_service"]
  /\ columns (value (load_data None)) = []
  /\ rows (value (load_data (Some csv_elsewhere))) = []
  /\ rows (value (load_data None)) = [].
Proof.
  repeat split. discriminate.
Qed.

(** ** Sample runs *)

Example scenario_A :
  snd (filter_data (rows (value (load_data (Some csv_six_regions))))
                   all_regions 2000 ["large_airport"] ["yes"; "no"]) = 6%nat.
Proof. reflexivity. Qed.

Example scenario_B :
  snd (filter_data (rows (value (load_data (Some csv_six_regions))))
                   all_regions 100 ["large_airport"] ["yes"; "no"]) = 0%nat.
Proof. reflexivity. Qed.

Example load_data_mixed :
  map (fun r => (id r, iso_region r, elevation_ft r))
      (rows (value (load_data (Some csv_mixed))))
  = [ (3%Z, Some "Maine", None);
      (7%Z, Some "Massachusetts", None);
      (1%Z, Some "Massachusetts", Some 10);
      (6%Z, Some "Massachusetts", Some 2500);
      (2%Z, Some "Connecticut", None) ].
Proof. reflexivity. Qed.

Example mean_skips_missing :
  mean [Some 1; None; Some 2; Some (7 # 2)] = Some (13 # 6).
Proof. reflexivity. Qed.

Example radar_chart_mixed :
  create_radar_chart (rows (value (load_data (Some csv_mixed))))
  = (tt, [ st_plotly_chart
             (scatterpolar [ ("Connecticut", 1%nat, None);
                             ("Maine", 1%nat, None);
                             ("Massachusetts", 3%nat, Some (2510 # 2)) ]) ]).
Proof. reflexivity. Qed.

Example metrics_mixed :
  log (display_metrics (rows (value (load_data (Some csv_mixed)))))
  = [ st_markdown "### Key Metrics";
      st_write_metric "Total Airports" 5;
      st_write_metric "Large Airports" 1;
      st_write_metric "Medium Airports" 1;
      st_write_metric "Small Airports" 3 ].
Proof. reflexivity. Qed.

(** ** More on the loader *)

(** X1: Every row of the loaded table has one of the three airport categories,
    and it is a row of the file in which only the region and the elevation
    were rewritten: identifier, category, name, position, municipality and
    service flag are those of the file. *)
Theorem load_data_category_closure (raw : DataFrame) :
  Forall (fun r =>
            (exists t, type r = Some t
                       /\ In t ["small_airport"; "medium_airport"; "large_airport"])
            /\ exists r0,
                 In r0 raw
                 /\ id r = id r0 /\ ident r = ident r0 /\ type r = type r0
                 /\ name r = name r0
                 /\ latitude_deg r = latitude_deg r0
                 /\ longitude_deg r = longitude_deg r0
                 /\ municipality r = municipality r0
                 /\ scheduled_service r = scheduled_service r0)
         (rows (value (load_data (Some raw)))).
Proof.
  rewrite load_data_value. apply Forall_forall. intros r Hr.
  apply preprocess_In in Hr. destruct Hr as (r0 & Hin & Hrec & ->).
  apply andb_true_iff in Hrec. destruct Hrec as [_ Hty].
  apply isin_true in Hty. split; [exact Hty|].
  exists r0. simpl. auto 10.
Qed.

(** X2: The loader keeps every positive stored elevation as it is and turns
    every other one into the missing marker: a loaded row has elevation [e]
    exactly when its file row has the stored elevation [e] and [e] is
    positive. *)
Theorem load_data_keeps_positive (raw : DataFrame) :
  Forall (fun r =>
            exists r0,
              In r0 raw /\ id r = id r0
              /\ forall e, elevation_ft r = Some e <->
                           (elevation_ft r0 = Some e /\ 0 < e))
         (rows (value (load_data (Some raw)))).
Proof.
  rewrite load_data_value. apply Forall_forall. intros r Hr.
  apply preprocess_In in Hr. destruct Hr as (r0 & Hin & _ & ->).
  exists r0. split; [assumption|]. split; [reflexivity|].
  intros e. simpl.
  destruct (clean_elevation_spec (elevation_ft r0))
    as [[Hnone Hwhy]|(x & Hx & Hsome & Hpos)].
  - rewrite Hnone. split; [discriminate|].
    intros [He Hlt]. destruct Hwhy as [Hw|(x & Hx & Hle)].
    + congruence.
    + rewrite He in Hx. injection Hx as <-.
      exfalso. now apply (Qlt_not_le 0 e).
  - rewrite Hsome, Hx. split.
    + intros [= <-]. auto.
    + now intros [He _].
Qed.

(** X3: The loaded table has as many rows as the file has rows with a
    recognized region code and category, hence at most as many as the
    file. *)
Theorem load_data_length (raw : DataFrame) :
  len (rows (value (load_data (Some raw)))) = length (filter recognized raw)
  /\ (len (rows (value (load_data (Some raw)))) <= length raw)%nat.
Proof.
  rewrite load_data_value. unfold len.
  rewrite (Permutation_length (preprocess_perm raw)), length_map.
  split; [reflexivity|].
  rewrite <- (filter_true raw) at 2. apply filter_length_le. reflexivity.
Qed.

(** ** More on the filter engine *)

Lemma loaded_present_le (data : DataFrame) :
  StronglySorted sorted_before data ->
  StronglySorted present_le (map normalize data).
Proof.
  induction 1 as [|a l Hs IH Ha]; simpl; constructor; [assumption|].
  rewrite Forall_forall in *. intros b' Hb'.
  apply in_map_iff in Hb'. destruct Hb' as (b & <- & Hb).
  specialize (Ha b Hb). unfold sorted_before in Ha.
  intros x y. simpl. unfold clean_elevation.
  destruct (elevation_ft a) as [xa|]; [|discriminate].
  destruct (elevation_ft b) as [yb|]; [|discriminate].
  destruct (Qgtb xa 0); [|discriminate].
  destruct (Qgtb yb 0); [|discriminate].
  intros [= <-] [= <-]. now apply Qle_bool_iff.
Qed.

Lemma preprocess_present_le (raw : DataFrame) :
  StronglySorted present_le (preprocess raw).
Proof.
  unfold preprocess. apply loaded_present_le. apply sort_values_sorted.
Qed.

Lemma loaded_positive (fs : FileSystem) (r : Row) (e : Q) :
  In r (rows (value (load_data fs))) -> elevation_ft r = Some e -> 0 < e.
Proof.
  destruct fs as [raw|]; [|contradiction].
  rewrite load_data_value. intros Hr He.
  apply preprocess_In in Hr. destruct Hr as (r0 & _ & _ & ->).
  simpl in He.
  destruct (clean_elevation_spec (elevation_ft r0)) as [[H _]|(x & _ & H & Hx)];
    congruence.
Qed.

(** X4: The subset that [filter_data] returns of a loaded table is in
    non-decreasing order of elevation throughout: no row of it carries the
    missing marker, every elevation in it is positive and at most the
    ceiling, and each row's elevation is at most that of every later row. *)
Theorem filter_data_loaded_sorted (fs : FileSystem) regions elevation types service :
  StronglySorted elevation_le
    (fst (filter_data (rows (value (load_data fs))) regions elevation types service))
  /\ Forall (fun r => exists e, elevation_ft r = Some e /\ 0 < e /\ e <= elevation)
            (fst (filter_data (rows (value (load_data fs))) regions elevation types service)).
Proof.
  assert (Hall : Forall (fun r => exists e, elevation_ft r = Some e /\ 0 < e /\ e <= elevation)
            (fst (filter_data (rows (value (load_data fs))) regions elevation types service))).
  { apply Forall_forall. intros r Hr. apply filter_data_In in Hr.
    destruct Hr as (Hin & _ & (e & He & Hle) & _).
    exists e. eauto using loaded_positive. }
  split; [|exact Hall].
  assert (Hs : StronglySorted present_le
                 (fst (filter_data (rows (value (load_data fs))) regions elevation types service))).
  { unfold filter_data; simpl. apply StronglySorted_filter.
    destruct fs as [raw|]; [|constructor].
    rewrite load_data_value. apply preprocess_present_le. }
  revert Hall Hs.
  generalize (fst (filter_data (rows (value (load_data fs))) regions elevation types service)).
  intros l Hall. induction 1 as [|a l Hs IH Ha]; [constructor|].
  inversion Hall as [|? ? (x & Hx & _) Hall']; subst.
  constructor; [auto|].
  rewrite Forall_forall in *. intros b Hb.
  destruct (Hall' b Hb) as (y & Hy & _).
  unfold elevation_le. rewrite Hx, Hy. now apply (Ha b Hb).
Qed.

(** X5: An empty selection is no error: with no allowed region, no allowed
    category or no allowed service flag, [filter_data] returns the empty
    subset and the count 0. *)
Theorem filter_data_empty_selection data regions elevation types service :
  filter_data data [] elevation types service = ([], 0%nat)
  /\ filter_data data regions elevation [] service = ([], 0%nat)
  /\ filter_data data regions elevation types [] = ([], 0%nat).
Proof.
  unfold filter_data.
  assert (Hnil : forall c, isin c [] = false) by (now intros [s|]).
  repeat split;
    (replace (filter _ data) with (@nil Row); [reflexivity|];
     symmetry; induction data as [|r data IH]; simpl; [reflexivity|];
     rewrite !Hnil, ?andb_false_r; simpl; exact IH).
Qed.

(** X6: With a ceiling of zero (the lowest position of the slider) or less,
    [filter_data] returns nothing of a table loaded from a file, since every
    elevation present after loading is positive. *)
Theorem filter_data_ceiling_zero (raw : DataFrame) regions elevation types service :
  elevation <= 0 ->
  filter_data (rows (value (load_data (Some raw)))) regions elevation types service
  = ([], 0%nat).
Proof.
  intros Hc.
  assert (H : fst (filter_data (rows (value (load_data (Some raw))))
                               regions elevation types service) = []).
  { destruct (fst (filter_data _ _ _ _ _)) as [|r l] eqn:E; [reflexivity|].
    assert (Hr : In r (fst (filter_data (rows (value (load_data (Some raw))))
                                        regions elevation types service)))
      by (rewrite E; now left).
    apply filter_data_In in Hr. destruct Hr as (Hin & _ & (e & He & Hle) & _).
    pose proof (loaded_positive (Some raw) r e Hin He) as Hpos.
    exfalso. apply (Qlt_not_le 0 e Hpos). now apply Qle_trans with elevation. }
  unfold filter_data in *. simpl in *. now rewrite H.
Qed.

Lemma filter_data_ceiling_zero_witness :
  filter_data (rows (value (load_data (Some csv_mixed)))) all_regions 0
              airport_types ["yes"; "no"] = ([], 0%nat).
Proof.
  apply (filter_data_ceiling_zero csv_mixed all_regions 0
           airport_types ["yes"; "no"]).
  apply Qle_bool_iff. reflexivity.
Defined.

(** X7: Filtering twice: applying [filter_data] with the same criteria to its
    own output changes nothing, and two filters applied one after the other
    give the same subset in either order. *)
Theorem filter_data_compose data r1 e1 t1 s1 r2 e2 t2 s2 :
  filter_data (fst (filter_data data r1 e1 t1 s1)) r1 e1 t1 s1
  = filter_data data r1 e1 t1 s1
  /\ filter_data (fst (filter_data data r1 e1 t1 s1)) r2 e2 t2 s2
     = filter_data (fst (filter_data data r2 e2 t2 s2)) r1 e1 t1 s1.
Proof.
  unfold filter_data; simpl. rewrite !filter_filter. split.
  - assert (E : forall l : DataFrame,
              filter (fun x => isin (iso_region x) r1 && cell_le (elevation_ft x) e1
                               && isin (type x) t1 && isin (scheduled_service x) s1
                               && (isin (iso_region x) r1 && cell_le (elevation_ft x) e1
                                   && isin (type x) t1 && isin (scheduled_service x) s1)) l
              = filter (fun x => isin (iso_region x) r1 && cell_le (elevation_ft x) e1
                                 && isin (type x) t1 && isin (scheduled_service x) s1) l).
    { intros l. apply filter_ext. intros x. apply andb_diag. }
    now rewrite E.
  - assert (E : forall l : DataFrame,
              filter (fun x => isin (iso_region x) r1 && cell_le (elevation_ft x) e1
                               && isin (type x) t1 && isin (scheduled_service x) s1
                               && (isin (iso_region x) r2 && cell_le (elevation_ft x) e2
                                   && isin (type x) t2 && isin (scheduled_service x) s2)) l
              = filter (fun x => isin (iso_region x) r2 && cell_le (elevation_ft x) e2
                                 && isin (type x) t2 && isin (scheduled_service x) s2
                                 && (isin (iso_region x) r1 && cell_le (elevation_ft x) e1
                                     && isin (type x) t1 && isin (scheduled_service x) s1)) l).
    { intros l. apply filter_ext. intros x. apply andb_comm. }
    now rewrite E.
Qed.

(** X8: On a loaded table the default selections restrict nothing: with all six
    state names and all three categories allowed, [filter_data] returns
    exactly the loaded rows that pass the elevation and service tests, in
    table order. *)
Theorem filter_data_defaults (fs : FileSystem) elevation service :
  fst (filter_data (rows (value (load_data fs))) (values STATES) elevation
                   ["small_airport"; "medium_airport"; "large_airport"] service)
  = filter (fun r => cell_le (elevation_ft r) elevation
                     && isin (scheduled_service r) service)
           (rows (value (load_data fs))).
Proof.
  unfold filter_data; simpl fst. apply filter_ext_in. intros r Hr. cbv beta.
  destruct fs as [raw|]; [|contradiction].
  rewrite load_data_value in Hr. apply preprocess_In in Hr.
  destruct Hr as (r0 & _ & Hrec & ->).
  apply andb_true_iff in Hrec. destruct Hrec as [Hreg Hty].
  assert (H1 : isin (iso_region (normalize (relabel r0))) (values STATES) = true).
  { apply isin_true in Hreg. destruct Hreg as (code & Hcode & Hkey).
    destruct (STATES_get_key code Hkey) as (nm & Hnm).
    apply isin_true. exists nm. simpl. rewrite Hcode. simpl. split; [assumption|].
    apply STATES_names in Hnm. apply Hnm. }
  assert (H2 : isin (type (normalize (relabel r0)))
                    ["small_airport"; "medium_airport"; "large_airport"] = true)
    by exact Hty.
  change (values STATES) with state_names in H1. unfold state_names in H1.
  rewrite H1, H2. simpl. now rewrite andb_true_r.
Qed.

(** ** More on grouping and aggregation *)

Lemma sorted_leb_ltb (l : list string) :
  Sorted (fun a b => String.leb a b = true) l -> NoDup l ->
  Sorted (fun a b => String.ltb a b = true) l.
Proof.
  induction 1 as [|a l Hs IH Ha]; intros Hnd; constructor.
  - apply IH. now inversion Hnd.
  - destruct Ha as [|b l Hab]; constructor.
    assert (Hne : a <> b).
    { intros ->. inversion Hnd as [|? ? Hnotin _]; subst. apply Hnotin. now left. }
    unfold String.leb, String.ltb in *.
    destruct (String.compare a b) eqn:E; try reflexivity; try discriminate.
    apply String.compare_eq_iff in E. contradiction.
Qed.

(** X9: [groupby("iso_region")] makes one group for each region name that
    occurs in the table and no other: a name has a group exactly when some
    row has that region, and no name has two.  The groups come in strictly
    ascending order of their name; a group holds exactly the rows of its
    region and is never empty, so every per-region count is at least 1. *)
Theorem groupby_iso_region_groups (data : DataFrame) :
  (forall k, In k (map fst (groupby_iso_region data)) <->
             exists r, In r data /\ iso_region r = Some k)
  /\ NoDup (map fst (groupby_iso_region data))
  /\ Sorted (fun a b => String.ltb a b = true) (map fst (groupby_iso_region data))
  /\ Forall (fun g =>
               snd g <> []
               /\ forall r, In r (snd g) <-> In r data /\ iso_region r = Some (fst g))
            (groupby_iso_region data)
  /\ Forall (fun c => (1 <= snd c)%nat) (size (groupby_iso_region data)).
Proof.
  assert (Hgroups : forall g, In g (groupby_iso_region data) ->
            snd g <> []
            /\ forall r, In r (snd g) <-> In r data /\ iso_region r = Some (fst g)).
  { intros g Hg.
    assert (Hk : In (fst g) (map fst (groupby_iso_region data))) by now apply in_map.
    apply group_keys_In in Hk. destruct Hk as (r0 & Hin0 & Hr0).
    unfold groupby_iso_region in Hg. apply in_map_iff in Hg.
    destruct Hg as (k & <- & _). simpl in *.
    assert (Hrows : forall r, In r (filter (fun r => cell_is (iso_region r) k) data)
                              <-> In r data /\ iso_region r = Some k).
    { intros r. rewrite filter_In. unfold cell_is.
      destruct (iso_region r) as [s|].
      - destruct (String.eqb_spec s k) as [->|Hne]; split; intros [H1 H2];
          split; try assumption; try reflexivity; try discriminate.
        congruence.
      - split; intros [H1 H2]; discriminate. }
    split; [|exact Hrows].
    intros Hnil. assert (H : In r0 (filter (fun r => cell_is (iso_region r) k) data))
      by now apply Hrows.
    now rewrite Hnil in H. }
  split; [|split; [|split; [|split]]].
  - apply group_keys_In.
  - apply group_keys_NoDup.
  - apply sorted_leb_ltb; [|apply group_keys_NoDup].
    unfold groupby_iso_region. rewrite map_map; simpl. rewrite map_id.
    apply (sort_sorted String.leb). apply String.leb_total.
  - apply Forall_forall. exact Hgroups.
  - apply Forall_forall. intros c Hc. unfold size in Hc.
    apply in_map_iff in Hc. destruct Hc as (g & <- & Hg). simpl.
    destruct (Hgroups g Hg) as [Hne _]. unfold len.
    destruct (snd g); [contradiction|simpl; lia].
Qed.

Lemma merge_one {A B : Type} (k : string) (a : A) (g : string -> B) (K : list string) :
  NoDup K ->
  flat_map (fun r : string * B =>
              if String.eqb k (fst r) then [(k, a, snd r)] else [])
           (map (fun k' => (k', g k')) K)
  = if in_dec string_dec k K then [(k, a, g k)] else [].
Proof.
  induction 1 as [|k' K Hk Hnd IH]; simpl; [reflexivity|].
  rewrite IH. destruct (String.eqb_spec k k') as [E|Hne].
  - subst k'. destruct (string_dec k k) as [E|]; [|contradiction].
    destruct (in_dec string_dec k K); [contradiction|reflexivity].
  - destruct (string_dec k' k) as [E|N]; [congruence|].
    destruct (in_dec string_dec k K); reflexivity.
Qed.

Lemma merge_same_keys {A B : Type} (f : string -> A) (g : string -> B)
    (L K : list string) :
  NoDup K -> incl L K ->
  merge (map (fun k => (k, f k)) L) (map (fun k => (k, g k)) K)
  = map (fun k => (k, f k, g k)) L.
Proof.
  intros Hnd. induction L as [|k L IH]; intros Hincl; simpl; [reflexivity|].
  unfold merge in *. simpl.
  rewrite (merge_one k (f k) g K Hnd).
  destruct (in_dec string_dec k K) as [_|Hout].
  - simpl. f_equal. apply IH. intros x Hx. apply Hincl. now right.
  - exfalso. apply Hout. apply Hincl. now left.
Qed.

(** X10: The join in [create_radar_chart] loses and repeats nothing: the combined
    table of the radar chart has exactly one row per region group, in the
    order of the groups, holding the group's row count and its mean
    elevation. *)
Theorem create_radar_chart_combined (data : DataFrame) :
  create_radar_chart data
  = (tt, [ st_plotly_chart
             (scatterpolar
                (map (fun g => (fst g, len (snd g), mean (map elevation_ft (snd g))))
                     (groupby_iso_region data))) ]).
Proof.
  unfold create_radar_chart, call. do 4 f_equal.
  pose proof (group_keys_NoDup data) as Hnd.
  unfold size, mean_elevation_ft, groupby_iso_region in *.
  rewrite !map_map in *. simpl in *. rewrite map_id in Hnd.
  apply (merge_same_keys
           (fun k => len (filter (fun r => cell_is (iso_region r) k) data))
           (fun k => mean (map elevation_ft
                               (filter (fun r => cell_is (iso_region r) k) data))));
    [assumption|apply incl_refl].
Qed.

Lemma count_occ_type (data : DataFrame) (t : string) :
  count_occ string_dec (dropna (map type data)) t = count_type t data.
Proof.
  unfold count_type. induction data as [|r data IH]; simpl; [reflexivity|].
  unfold cell_is. destruct (type r) as [s|]; simpl; [|assumption].
  destruct (string_dec s t) as [->|Hne].
  - rewrite String.eqb_refl. simpl. now f_equal.
  - destruct (String.eqb_spec s t); [contradiction|assumption].
Qed.

(** X11: [display_metrics] shows the number of rows as the total and, for each of
    the three categories, the number of rows of that category, 0 when there
    is none; the three never add up to more than the total, and rows of
    another or of no category count in the total only. *)
Theorem display_metrics_counts (data : DataFrame) :
  log (display_metrics data)
  = [ st_markdown "### Key Metrics";
      st_write_metric "Total Airports" (length data);
      st_write_metric "Large Airports" (count_type "large_airport" data);
      st_write_metric "Medium Airports" (count_type "medium_airport" data);
      st_write_metric "Small Airports" (count_type "small_airport" data) ]
  /\ (count_type "large_airport" data + count_type "medium_airport" data
      + count_type "small_airport" data <= length data)%nat.
Proof.
  split.
  - unfold display_metrics. rewrite !value_counts_get, !count_occ_type. reflexivity.
  - unfold count_type, cell_is. induction data as [|r data IH]; simpl; [lia|].
    destruct (type r) as [s|]; simpl; [|lia].
    destruct (String.eqb_spec s "large_airport") as [->|_]; simpl; [lia|].
    destruct (String.eqb_spec s "medium_airport") as [->|_]; simpl; [lia|].
    destruct (String.eqb s "small_airport"); simpl; lia.
Qed.

(** ** Bounds on the means *)

Lemma Qsum_bounds (hi : Q) (xs : list Q) :
  Forall (fun x => 0 < x /\ x <= hi) xs ->
  0 <= Qsum xs /\ Qsum xs <= hi * inject_Z (Z.of_nat (length xs)).
Proof.
  induction 1 as [|x xs [Hx1 Hx2] _ [IH1 IH2]].
  - simpl. split; [apply Qle_refl|]. rewrite Qmult_0_r. apply Qle_refl.
  - cbn [Qsum fold_right length]. fold (Qsum xs).
    rewrite Nat2Z.inj_succ. unfold Z.succ. rewrite inject_Z_plus.
    rewrite Qmult_plus_distr_r, Qmult_1_r.
    set (n := hi * inject_Z (Z.of_nat (length xs))) in *.
    split; lra.
Qed.

Lemma mean_bounds (hi : Q) (cells : list (option Q)) :
  cells <> [] ->
  Forall (fun c => exists x, c = Some x /\ 0 < x /\ x <= hi) cells ->
  exists q, mean cells = Some q /\ 0 < q /\ q <= hi.
Proof.
  intros Hne Hall.
  assert (Hvals : Forall (fun x => 0 < x /\ x <= hi) (dropna cells)).
  { apply Forall_forall. intros x Hx. apply dropna_In in Hx.
    rewrite Forall_forall in Hall. destruct (Hall _ Hx) as (y & [= <-] & H). exact H. }
  assert (Hlen : length (dropna cells) = length cells).
  { apply dropna_all. apply Forall_forall. intros c Hc.
    rewrite Forall_forall in Hall. destruct (Hall c Hc) as (x & -> & _). eauto. }
  destruct (dropna cells) as [|x xs] eqn:E.
  { destruct cells; [contradiction|discriminate]. }
  destruct (Qsum_bounds hi (x :: xs) Hvals) as [_ Hup].
  assert (Hpos : 0 < Qsum (x :: xs)).
  { inversion Hvals as [|? ? [Hx _] Hrest]; subst.
    destruct (Qsum_bounds hi xs Hrest) as [Hlo _].
    cbn [Qsum fold_right]. fold (Qsum xs). lra. }
  unfold mean. destruct (mean_fold cells (0, 0%nat)) as [H1 H2].
  rewrite E in H1, H2. simpl fst in *. simpl snd in *.
  rewrite H2. cbn [length Nat.add].
  eexists. split; [reflexivity|].
  assert (Hn : 0 < inject_Z (Z.of_nat (S (length xs)))).
  { unfold Qlt. simpl. lia. }
  rewrite H1, Qplus_0_l. split.
  - apply Qlt_shift_div_l; [exact Hn|]. now rewrite Qmult_0_l.
  - apply Qle_shift_div_r; [exact Hn|]. exact Hup.
Qed.

(** X12: In the pipeline no bar is missing: for the subset that [filter_data]
    returns of a loaded table, every region group has a mean elevation, and
    that mean is positive and at most the ceiling. *)
Theorem pipeline_means_present (fs : FileSystem) regions elevation types service :
  Forall (fun g => exists q, snd g = Some q /\ 0 < q /\ q <= elevation)
         (mean_elevation_ft
            (groupby_iso_region
               (fst (filter_data (rows (value (load_data fs)))
                                 regions elevation types service)))).
Proof.
  set (filtered := fst (filter_data (rows (value (load_data fs))) regions elevation types service)).
  apply Forall_forall. intros g Hg.
  unfold mean_elevation_ft in Hg. apply in_map_iff in Hg.
  destruct Hg as (grp & <- & Hgrp). simpl.
  assert (Hk : In (fst grp) (map fst (groupby_iso_region filtered))) by now apply in_map.
  apply group_keys_In in Hk. destruct Hk as (r0 & Hin0 & Hr0).
  unfold groupby_iso_region in Hgrp. apply in_map_iff in Hgrp.
  destruct Hgrp as (k & <- & _). simpl in *.
  apply mean_bounds.
  - intros Hnil. apply map_eq_nil in Hnil.
    assert (H : In r0 (filter (fun r => cell_is (iso_region r) k) filtered)).
    { apply filter_In. split; [assumption|]. unfold cell_is. rewrite Hr0.
      apply String.eqb_refl. }
    now rewrite Hnil in H.
  - apply Forall_forall. intros c Hc. apply in_map_iff in Hc.
    destruct Hc as (r & <- & Hr). apply filter_In in Hr. destruct Hr as [Hr _].
    apply filter_data_In in Hr. destruct Hr as (Hin & _ & (e & He & Hle) & _).
    exists e. eauto using loaded_positive.
Qed.

(** ** More on the pipeline *)

Lemma main_log_loaded (raw : DataFrame) (w : Widgets) :
  preprocess raw <> [] ->
  log (main (Some raw) w)
  = page_header ++ sidebar_widgets
    ++ [ st_subheader "**Visualizations**";
         st_write "Explore the data through the following visualizations:";
         st_markdown "#### Airport Map";
         st_plotly_chart (scatter_geo (filtered_of (preprocess raw) w));
         st_markdown "#### Average Elevation by State";
         st_plotly_chart
           (bar (mean_elevation_ft
                   (groupby_iso_region (filtered_of (preprocess raw) w))));
         st_markdown "#### Airport Distribution";
         st_plotly_chart
           (scatterpolar
              (merge (size (groupby_iso_region (filtered_of (preprocess raw) w)))
                     (mean_elevation_ft
                        (groupby_iso_region (filtered_of (preprocess raw) w)))));
         st_markdown "#### Elevation Spread";
         st_plotly_chart (box (filtered_of (preprocess raw) w)) ]
    ++ log (display_metrics (filtered_of (preprocess raw) w)).
Proof.
  intros Hne. unfold main, load_data, read_csv, filtered_of, service_filter_of.
  destruct (preprocess raw) as [|r l] eqn:E; [contradiction|].
  reflexivity.
Qed.

Lemma main_log_empty (raw : DataFrame) (w : Widgets) :
  preprocess raw = [] -> log (main (Some raw) w) = page_header.
Proof.
  intros E. unfold main, load_data, read_csv. rewrite E. reflexivity.
Qed.

Lemma preprocess_nonempty (raw : DataFrame) :
  preprocess raw <> [] <-> exists r, In r raw /\ recognized r = true.
Proof.
  split.
  - intros Hne. destruct (preprocess raw) as [|r l] eqn:E; [contradiction|].
    assert (Hr : In r (preprocess raw)) by (rewrite E; now left).
    apply preprocess_In in Hr. destruct Hr as (r0 & Hin & Hrec & _). eauto.
  - intros (r0 & Hin & Hrec) E.
    assert (Hr : In (normalize (relabel r0)) (preprocess raw))
      by (apply preprocess_In; eauto).
    now rewrite E in Hr.
Qed.

(** X13: [main] goes past the loading step exactly when the file is there and has
    at least one row with a recognized region code and category; it then
    shows no error message, creates the four widgets, draws the map, the
    bar chart, the radar chart and the box plot, in this order and all from
    the one subset that [filter_data] returns for the widget values, and
    ends with the metrics of that subset. *)
Theorem main_runs_pipeline (fs : FileSystem) (w : Widgets) :
  (existsb downstream (log (main fs w)) = true <->
   exists raw, fs = Some raw /\ exists r, In r raw /\ recognized r = true)
  /\ (existsb downstream (log (main fs w)) = true ->
      existsb is_error (log (main fs w)) = false
      /\ figures (log (main fs w))
         = [ scatter_geo (filtered_of (rows (value (load_data fs))) w);
             bar (mean_elevation_ft
                    (groupby_iso_region (filtered_of (rows (value (load_data fs))) w)));
             scatterpolar
               (merge (size (groupby_iso_region (filtered_of (rows (value (load_data fs))) w)))
                      (mean_elevation_ft
                         (groupby_iso_region (filtered_of (rows (value (load_data fs))) w))));
             box (filtered_of (rows (value (load_data fs))) w) ]
      /\ metrics (log (main fs w))
         = metrics (log (display_metrics (filtered_of (rows (value (load_data fs))) w)))).
Proof.
  destruct fs as [raw|].
  - rewrite load_data_value.
    destruct (preprocess raw) as [|r0 l0] eqn:E.
    + rewrite (main_log_empty raw w E).
      split; [split; [discriminate|]|discriminate].
      intros (raw' & [= <-] & Hex). apply preprocess_nonempty in Hex.
      contradiction.
    + assert (Hne : preprocess raw <> []) by (rewrite E; discriminate).
      rewrite (main_log_loaded raw w Hne). rewrite E.
      split.
      * split; [|reflexivity]. intros _. exists raw. split; [reflexivity|].
        apply preprocess_nonempty. rewrite E. discriminate.
      * intros _. repeat split.
  - split; [split; [discriminate|intros (raw & Hraw & _); discriminate]|discriminate].
Qed.

Lemma filtered_of_rows (fs : FileSystem) (w : Widgets) (r : Row) :
  In r (filtered_of (rows (value (load_data fs))) w) ->
  In r (rows (value (load_data fs)))
  /\ region_allowed (selected_regions w) r
  /\ (exists e, elevation_ft r = Some e /\ 0 < e /\ e <= inject_Z (max_elevation w))
  /\ category_allowed (selected_types w) r
  /\ (scheduled_service r = Some "yes"
      \/ (commercial_only w = false /\ scheduled_service r = Some "no")).
Proof.
  unfold filtered_of. intros Hr. apply filter_data_In in Hr.
  destruct Hr as (Hin & Hreg & (e & He & Hle) & Hty & (f & Hf & Hsv)).
  repeat split; try assumption.
  - exists e. eauto using loaded_positive.
  - unfold service_filter_of in Hsv. destruct (commercial_only w); simpl in Hsv.
    + destruct Hsv as [<-|[]]. now left.
    + destruct Hsv as [<-|[<-|[]]]; [now left|right; auto].
Qed.

(** X14: Whatever the file and the widget values, every row that [main] puts on
    the map or in the box plot is a row of the loaded table that lies within
    the selection: its region is a selected region, its elevation is
    present, positive and at most the slider value, its category is a
    selected category, and its service flag is "yes", or "no" when the
    commercial-only box is not ticked. *)
Theorem main_shows_selection (fs : FileSystem) (w : Widgets) :
  Forall (fun c =>
            Forall (fun r =>
                      In r (rows (value (load_data fs)))
                      /\ region_allowed (selected_regions w) r
                      /\ (exists e, elevation_ft r = Some e /\ 0 < e
                                    /\ e <= inject_Z (max_elevation w))
                      /\ category_allowed (selected_types w) r
                      /\ (scheduled_service r = Some "yes"
                          \/ (commercial_only w = false
                              /\ scheduled_service r = Some "no")))
                   (shown_rows c))
         (log (main fs w)).
Proof.
  assert (Hrows := filtered_of_rows fs w).
  destruct fs as [raw|]; [|repeat constructor].
  rewrite load_data_value in *.
  destruct (preprocess raw) as [|r0 l0] eqn:E.
  - rewrite (main_log_empty raw w E). repeat constructor.
  - assert (Hne : preprocess raw <> []) by (rewrite E; discriminate).
    rewrite (main_log_loaded raw w Hne). rewrite E.
    apply Forall_forall. intros c Hc. simpl in Hc.
    repeat (destruct Hc as [<-|Hc];
            [simpl; first [apply Forall_nil | apply Forall_forall; exact Hrows]|]).
    contradiction.
Qed.

(** X15: A selection that matches no row is no error: when the loaded table is
    not empty but [filter_data] returns nothing for the widget values,
    [main] still draws the four charts, each from an empty table, and shows
    0 for the total and for each category. *)
Theorem main_empty_selection (raw : DataFrame) (w : Widgets) :
  preprocess raw <> [] ->
  filtered_of (preprocess raw) w = [] ->
  figures (log (main (Some raw) w))
  = [ scatter_geo []; bar []; scatterpolar []; box [] ]
  /\ metrics (log (main (Some raw) w))
     = [ ("Total Airports", 0%nat); ("Large Airports", 0%nat);
         ("Medium Airports", 0%nat); ("Small Airports", 0%nat) ].
Proof.
  intros Hne Hnil. rewrite (main_log_loaded raw w Hne), Hnil. split; reflexivity.
Qed.

Lemma main_empty_selection_witness :
  figures (log (main (Some csv_mixed) (mkWidgets [] 2000 airport_types false)))
  = [ scatter_geo []; bar []; scatterpolar []; box [] ]
  /\ metrics (log (main (Some csv_mixed) (mkWidgets [] 2000 airport_types false)))
     = [ ("Total Airports", 0%nat); ("Large Airports", 0%nat);
         ("Medium Airports", 0%nat); ("Small Airports", 0%nat) ].
Proof.
  apply (main_empty_selection csv_mixed (mkWidgets [] 2000 airport_types false)).
  - discriminate.
  - reflexivity.
Defined.
